(** * A shallow embedding of [gemini_api_integrate_in_project.py]

    The module wraps the [google.generativeai] client library: a class
    [GeminiAPIClient] with a constructor and one method, a custom
    exception class [GeminiAPIError], and a demonstration [main].

    The embedding keeps the shape of the Python code.  A computation is a
    function from the process state to an outcome (a returned value or a
    raised exception) and a new state; the state survives a raise, as it
    does in Python.  The vendor library is not part of the module: it is
    an interface ([Genai]) of operations on a private world, each of which
    may return or raise, and every theorem holds for every implementation
    of it.  Each call that crosses the boundary of the module is recorded
    in a trace, so that the order of the calls can be stated. *)

From Stdlib Require Import ZArith QArith.
From stdpp Require Import base option list gmap strings.

Close Scope Q_scope.
Set Warnings "-register-all".
Open Scope string_scope.
Open Scope list_scope.

(** ** Python values and exceptions *)

(** The values of a [Dict[str, Any]] of options, which the module passes
    on without looking at them.  A float literal is kept as the decimal it
    is written as. *)
Inductive Any :=
| AnyInt (z : Z)
| AnyFloat (q : Q)
| AnyStr (s : string).

(** [Optional[str]]: [None] is Python's [None]. *)
Abbreviation OptStr := (option string).

(** Truth value of an [Optional[str]]: [None] and [""] are false. *)
Definition truthy (v : OptStr) : bool :=
  match v with
  | None => false
  | Some s => negb (String.eqb s "")
  end.

(** [str(v)], as an f-string formats it. *)
Definition str_of (v : OptStr) : string :=
  match v with
  | None => "None"
  | Some s => s
  end.

(** The string that a truthy [Optional[str]] is. *)
Definition as_str (v : OptStr) : string :=
  match v with
  | None => ""
  | Some s => s
  end.

(** Exception classes, with single inheritance.  The five named classes
    are the ones the module mentions; [OtherClass] is any further class,
    given by its name and its base: [KeyboardInterrupt] derives from
    [BaseException], [AttributeError] from [Exception], the vendor's
    [NotFound] from [GoogleAPIError]. *)
Inductive pyclass :=
| BaseException
| Exception
| ValueError
| GoogleAPIError
| GeminiAPIError
| OtherClass (name : string) (base : pyclass).

Fixpoint pyclass_eqb (c d : pyclass) : bool :=
  match c, d with
  | BaseException, BaseException => true
  | Exception, Exception => true
  | ValueError, ValueError => true
  | GoogleAPIError, GoogleAPIError => true
  | GeminiAPIError, GeminiAPIError => true
  | OtherClass n b, OtherClass n' b' => String.eqb n n' && pyclass_eqb b b'
  | _, _ => false
  end.

(** [issubclass c d]: [d] is [c] or one of its ancestors.
    [class GeminiAPIError(Exception)] is line 31 of the module. *)
Fixpoint issubclass (c d : pyclass) : bool :=
  pyclass_eqb c d ||
  match c with
  | BaseException => false
  | Exception => pyclass_eqb BaseException d
  | ValueError | GoogleAPIError | GeminiAPIError =>
      pyclass_eqb Exception d || pyclass_eqb BaseException d
  | OtherClass _ b => issubclass b d
  end.

(** An exception object: its class, the text [str(e)] gives, and the
    [__cause__] that [raise ... from e] records. *)
Inductive exn :=
| Exn (cls : pyclass) (msg : string) (cause : option exn).

Definition exn_class (e : exn) : pyclass := let 'Exn c _ _ := e in c.
Definition exn_str (e : exn) : string := let 'Exn _ m _ := e in m.
Definition exn_cause (e : exn) : option exn := let 'Exn _ _ c := e in c.

Definition isinstance (e : exn) (c : pyclass) : bool :=
  issubclass (exn_class e) c.

(** [raise new from e] sets [new.__cause__ = e]. *)
Definition from (new e : exn) : exn :=
  Exn (exn_class new) (exn_str new) (Some e).

Inductive outcome (A : Type) :=
| Return (a : A)
| Raise (e : exn).
Arguments Return {A} a.
Arguments Raise {A} e.

Definition AttributeError : pyclass := OtherClass "AttributeError" Exception.
Definition KeyboardInterrupt : pyclass :=
  OtherClass "KeyboardInterrupt" BaseException.

(** ** The process environment *)

(** [os.environ] is a mapping of strings whose values hold no NUL byte:
    the environment of a process is made of C strings, and an assignment
    to [os.environ] refuses a value that holds one. *)
Fixpoint has_nul (s : string) : bool :=
  match s with
  | EmptyString => false
  | String c s' => Ascii.eqb c Ascii.zero || has_nul s'
  end.

Fixpoint has_equals (s : string) : bool :=
  match s with
  | EmptyString => false
  | String c s' => Ascii.eqb c (Ascii.ascii_of_nat 61) || has_equals s'
  end.

(** The names [putenv] refuses: the empty one and those with an [=]. *)
Definition illegal_name (name : string) : bool :=
  String.eqb name "" || has_equals name.

Definition nul_free_values (env : gmap string string) : Prop :=
  map_Forall (λ _ value, has_nul value = false) env.

Definition Environ_ok (env : gmap string string) : Prop :=
  bool_decide (nul_free_values env).

Definition Environ : Type := sig Environ_ok.

Definition Environ_empty : Environ :=
  exist Environ_ok ∅ (bool_decide_pack _ (map_Forall_empty _)).

Definition Environ_insert (name value : string)
    (ok : has_nul value = false) (env : Environ) : Environ :=
  exist Environ_ok (<[name := value]> (proj1_sig env))
    (bool_decide_pack _
       (map_Forall_insert_2 _ _ _ _ ok
          (bool_decide_unpack _ (proj2_sig env)))).

(** The two [ValueError]s of an assignment to [os.environ]. *)
Definition embedded_null_byte : exn :=
  Exn ValueError "embedded null byte" None.
Definition illegal_environment_name : exn :=
  Exn ValueError "illegal environment variable name" None.

(** ** The vendor library *)

(** [google.generativeai] as the module uses it: [genai.configure],
    the constructor [genai.GenerativeModel], the method
    [generate_content] of a model, and [raise_for_status()] and [.text]
    of what that method returns.  [W] is whatever the library and the
    remote service keep between calls. *)
Class Genai (W Model Response : Type) := {
  genai_configure : string → W → outcome unit * W;
  genai_GenerativeModel : string → W → outcome Model * W;
  model_generate_content :
    Model → string → option (gmap string Any) → option (gmap string Any) →
    W → outcome Response * W;
  response_raise_for_status : Response → W → outcome unit * W;
  response_text : Response → W → outcome OptStr * W
}.

Section Client.

Context {W Model Response : Type} {G : Genai W Model Response}.

(** ** Process state *)

(** The instance attributes of a [GeminiAPIClient]; [None] is an
    attribute that has not been assigned. *)
Record Self := mkSelf {
  api_key : option string;
  model : option Model
}.

Definition blank : Self := {| api_key := None; model := None |}.

(** What leaves the module, in the order it happens. *)
Inductive event :=
| EvEnvironSet (name value : string)
| EvConfigure (key : string)
| EvGenerativeModel (model_name : string)
| EvGenerateContent (m : Model) (prompt : string)
    (generation_config safety_settings : option (gmap string Any))
| EvRaiseForStatus (r : Response)
| EvText (r : Response)
| EvPrint (line : string).

(** [heap]: the client objects, a reference being an index;
    [os_environ]: [os.environ]; [trace]: the events so far, oldest first;
    [lib]: the vendor library's world. *)
Record State := mkState {
  heap : list Self;
  os_environ : Environ;
  trace : list event;
  lib : W
}.

(** [os.environ] as the mapping it is. *)
Definition environ (st : State) : gmap string string :=
  proj1_sig (os_environ st).

Definition M (A : Type) : Type := State → outcome A * State.

Definition ret {A} (a : A) : M A := λ st, (Return a, st).

Definition raise {A} (e : exn) : M A := λ st, (Raise e, st).

Definition bind {A B} (c : M A) (k : A → M B) : M B :=
  λ st, match c st with
        | (Return a, st') => k a st'
        | (Raise e, st') => (Raise e, st')
        end.

Notation "x <- c ;; k" := (bind c (λ x, k))
  (at level 100, c at next level, right associativity).
Notation "c ;; k" := (bind c (λ _, k))
  (at level 100, right associativity).

Abbreviation Dict := (gmap string Any).
Abbreviation ref := nat.

(** ** Statements of Python *)

(** [try: body except C1 as e: h1 except C2 as e: h2 ...]: the first
    clause whose class the exception is an instance of handles it, in the
    state the body left; an exception no clause names goes on to the
    caller, and so does one a handler raises. *)
Fixpoint handle {A} (clauses : list (pyclass * (exn → M A))) (e : exn)
  : M A :=
  match clauses with
  | [] => raise e
  | (c, h) :: rest => if isinstance e c then h e else handle rest e
  end.

Definition try_except {A} (body : M A)
    (clauses : list (pyclass * (exn → M A))) : M A :=
  λ st, match body st with
        | (Return a, st') => (Return a, st')
        | (Raise e, st') => handle clauses e st'
        end.

(** A call into the vendor library: recorded, then run on its world. *)
Definition call {A} (ev : event) (f : W → outcome A * W) : M A :=
  λ st, let '(o, w) := f (lib st) in
        (o, {| heap := heap st; os_environ := os_environ st;
               trace := trace st ++ [ev]; lib := w |}).

(** [print(line)] *)
Definition print (line : string) : M unit :=
  λ st, (Return tt, {| heap := heap st; os_environ := os_environ st;
                       trace := trace st ++ [EvPrint line];
                       lib := lib st |}).

(** [os.environ.get(name)] *)
Definition environ_get (name : string) : M OptStr :=
  λ st, (Return (environ st !! name), st).

(** [os.environ[name] = value].  The name and the value are handed to
    [putenv], which raises [ValueError] for a NUL byte in either and for
    an illegal name; the mapping is updated only when [putenv] has
    returned, and the assignment is recorded only then. *)
Definition environ_set (name value : string) : M unit :=
  λ st, if has_nul name then (Raise embedded_null_byte, st)
        else match decide (has_nul value = false) with
             | right _ => (Raise embedded_null_byte, st)
             | left ok =>
                 if illegal_name name
                 then (Raise illegal_environment_name, st)
                 else (Return tt,
                       {| heap := heap st;
                          os_environ :=
                            Environ_insert name value ok (os_environ st);
                          trace := trace st ++ [EvEnvironSet name value];
                          lib := lib st |})
             end.

(** The object that [GeminiAPIClient(...)] allocates before it runs
    [__init__] on it. *)
Definition new_object : M ref :=
  λ st, (Return (length (heap st)),
         {| heap := heap st ++ [blank]; os_environ := os_environ st;
            trace := trace st; lib := lib st |}).

Definition no_attribute (name : string) : exn :=
  Exn AttributeError
    ("'GeminiAPIClient' object has no attribute '" +:+ name +:+ "'") None.

(** [self.api_key] and [self.model], read. *)
Definition get_api_key (self : ref) : M string :=
  λ st, match heap st !! self ≫= api_key with
        | Some k => (Return k, st)
        | None => (Raise (no_attribute "api_key"), st)
        end.

Definition get_model (self : ref) : M Model :=
  λ st, match heap st !! self ≫= model with
        | Some m => (Return m, st)
        | None => (Raise (no_attribute "model"), st)
        end.

(** [self.api_key = k] and [self.model = m]. *)
Definition set_api_key (self : ref) (k : string) : M unit :=
  λ st, (Return tt,
         {| heap := alter (λ o, {| api_key := Some k; model := model o |})
                      self (heap st);
            os_environ := os_environ st; trace := trace st;
            lib := lib st |}).

Definition set_model (self : ref) (m : Model) : M unit :=
  λ st, (Return tt,
         {| heap := alter (λ o, {| api_key := api_key o; model := Some m |})
                      self (heap st);
            os_environ := os_environ st; trace := trace st;
            lib := lib st |}).

(** ** [GeminiAPIClient] *)

Definition default_model_name : string := "gemini-1.5-pro-latest".

(** [GeminiAPIClient.__init__], lines 46 to 66. *)
Definition __init__ (self : ref) (api_key : OptStr) (model_name : string)
  : M unit :=
  if negb (truthy api_key) then
    raise (Exn ValueError "API key cannot be empty or None." None)
  else
    set_api_key self (as_str api_key) ;;
    k <- get_api_key self ;;
    environ_set "GOOGLE_API_KEY" k ;;
    k <- get_api_key self ;;
    call (EvConfigure k) (genai_configure k) ;;
    try_except
      (m <- call (EvGenerativeModel model_name)
              (genai_GenerativeModel model_name) ;;
       set_model self m)
      [(Exception, λ e,
         raise (from (Exn GeminiAPIError
                        ("Failed to initialize model: " +:+ exn_str e) None)
                  e))].

(** The expression [GeminiAPIClient(api_key, model_name)]. *)
Definition GeminiAPIClient (api_key : OptStr) (model_name : string)
  : M ref :=
  self <- new_object ;;
  __init__ self api_key model_name ;;
  ret self.

Definition no_content : string := "No content generated.".

(** The body of the [try] of [generate_content], lines 87 to 93. *)
Definition generate_content_body (self : ref) (prompt : string)
    (generation_config safety_settings : option Dict) : M OptStr :=
  m <- get_model self ;;
  response <- call (EvGenerateContent m prompt generation_config
                      safety_settings)
                (model_generate_content m prompt generation_config
                   safety_settings) ;;
  call (EvRaiseForStatus response) (response_raise_for_status response) ;;
  t <- call (EvText response) (response_text response) ;;
  if truthy t then call (EvText response) (response_text response)
  else ret (Some no_content).

(** The two [except] clauses of [generate_content], lines 95 to 98. *)
Definition generate_content_clauses : list (pyclass * (exn → M OptStr)) :=
  [(GoogleAPIError, λ e,
     raise (from (Exn GeminiAPIError
                    ("Gemini API error: " +:+ exn_str e) None) e));
   (Exception, λ e,
     raise (from (Exn GeminiAPIError
                    ("Unexpected error during content generation: "
                     +:+ exn_str e) None) e))].

(** [GeminiAPIClient.generate_content], lines 69 to 98. *)
Definition generate_content (self : ref) (prompt : string)
    (generation_config safety_settings : option Dict) : M OptStr :=
  try_except
    (generate_content_body self prompt generation_config safety_settings)
    generate_content_clauses.

(** ** The demonstration *)

Definition missing_key_message : string :=
  "Error: Gemini API key not found in environment variable 'GEMINI_API_KEY'. Please set the environment variable and try again.".

Definition newline : string := String (Ascii.ascii_of_nat 10) "".

(** [main], lines 101 to 136. *)
Definition main : M unit :=
  api_key <- environ_get "GEMINI_API_KEY" ;;
  if negb (truthy api_key) then
    print missing_key_message
  else
    try_except
      (client <- GeminiAPIClient api_key default_model_name ;;
       let prompt := "Write a short poem about a cat." in
       print ("Prompt: " +:+ prompt) ;;
       response <- generate_content client prompt None None ;;
       print ("Response: " +:+ str_of response) ;;
       let generation_config : Dict :=
         {[ "temperature" := AnyFloat (9 # 10)%Q;
            "top_p" := AnyInt 1;
            "top_k" := AnyInt 1;
            "max_output_tokens" := AnyInt 200 ]} in
       print (newline +:+ "Example with Generation Configuration:") ;;
       response <- generate_content client
                     "Summarize the plot of Hamlet in 5 sentences."
                     (Some generation_config) None ;;
       print ("Response: " +:+ str_of response))
      [(GeminiAPIError, λ e, print ("Error: " +:+ exn_str e));
       (ValueError, λ e, print ("Error: " +:+ exn_str e));
       (Exception, λ e,
         print ("An unexpected error occurred: " +:+ exn_str e))].

(** The file run as a script.  After line 140 the file goes on with a
    Markdown fence and prose, lines 141 to 175, which are not Python: the
    interpreter rejects the file when it compiles it, before the first
    statement runs.  Nothing of the module is executed, [main] is never
    called, and the process ends with status 1. *)
Definition run_script (st : State) : Z * State := (1%Z, st).

(** ** The vocabulary of the specification *)

(** The three error kinds of the specification, as the module raises
    them.  [InvalidCredential] is the [ValueError] of line 58.  The module
    has one class, [GeminiAPIError], for the other two: the
    [ModelInitializationError] of a cause is what line 66 raises, the
    [ContentGenerationError] of a cause what lines 96 and 98 raise. *)
Definition InvalidCredential : exn :=
  Exn ValueError "API key cannot be empty or None." None.

Definition ModelInitializationError (cause : exn) : exn :=
  Exn GeminiAPIError ("Failed to initialize model: " +:+ exn_str cause)
    (Some cause).

Definition ContentGenerationError (cause : exn) : exn :=
  Exn GeminiAPIError
    ((if isinstance cause GoogleAPIError then "Gemini API error: "
      else "Unexpected error during content generation: ")
     +:+ exn_str cause)
    (Some cause).

(** In [st], [self] is a client that holds the model handle [m]. *)
Definition holds_model (st : State) (self : ref) (m : Model) : Prop :=
  heap st !! self ≫= model = Some m.

(** The library raises [e] in the course of
    [self.generate_content(prompt, generation_config, safety_settings)]
    started in [st]: in the call of the model, in [raise_for_status()], or
    in one of the two reads of [.text]. *)
Inductive raised_in_call (self : ref) (prompt : string)
    (generation_config safety_settings : option Dict) (st : State) (e : exn)
  : Prop :=
| raised_by_generate_content m w :
    holds_model st self m →
    model_generate_content m prompt generation_config safety_settings
      (lib st) = (Raise e, w) →
    raised_in_call self prompt generation_config safety_settings st e
| raised_by_raise_for_status m r w1 w2 :
    holds_model st self m →
    model_generate_content m prompt generation_config safety_settings
      (lib st) = (Return r, w1) →
    response_raise_for_status r w1 = (Raise e, w2) →
    raised_in_call self prompt generation_config safety_settings st e
| raised_by_text m r w1 w2 w3 :
    holds_model st self m →
    model_generate_content m prompt generation_config safety_settings
      (lib st) = (Return r, w1) →
    response_raise_for_status r w1 = (Return tt, w2) →
    response_text r w2 = (Raise e, w3) →
    raised_in_call self prompt generation_config safety_settings st e
| raised_by_second_text m r w1 w2 t w3 w4 :
    holds_model st self m →
    model_generate_content m prompt generation_config safety_settings
      (lib st) = (Return r, w1) →
    response_raise_for_status r w1 = (Return tt, w2) →
    response_text r w2 = (Return t, w3) →
    truthy t = true →
    response_text r w3 = (Raise e, w4) →
    raised_in_call self prompt generation_config safety_settings st e.

(** In a run of events, every read of the text of a response comes after
    a status check of that response. *)
Definition status_before_text (run : list event) : Prop :=
  ∀ i r, run !! i = Some (EvText r) →
         ∃ j, j < i ∧ run !! j = Some (EvRaiseForStatus r).

(** A deterministic stub: what a call on a model or on a response gives
    depends on its arguments only, not on what happened before. *)
Definition deterministic : Prop :=
  (∀ m prompt gc ss w w',
      (model_generate_content m prompt gc ss w).1 =
      (model_generate_content m prompt gc ss w').1) ∧
  (∀ r w w',
      (response_raise_for_status r w).1 =
      (response_raise_for_status r w').1) ∧
  (∀ r w w', (response_text r w).1 = (response_text r w').1).

(** ** The vocabulary of the demonstration *)

(** The two prompts of [main] and the options of its second call, lines
    114, 120 to 125 and 127. *)
Definition poem_prompt : string := "Write a short poem about a cat.".

Definition hamlet_prompt : string :=
  "Summarize the plot of Hamlet in 5 sentences.".

Definition demo_generation_config : Dict :=
  {[ "temperature" := AnyFloat (9 # 10)%Q;
     "top_p" := AnyInt 1;
     "top_k" := AnyInt 1;
     "max_output_tokens" := AnyInt 200 ]}.

Definition configuration_banner : string :=
  newline +:+ "Example with Generation Configuration:".

(** The line with which [main] reports an exception [e] it has caught:
    the first two clauses, lines 131 to 134, print alike; the third, lines
    135 and 136, has a text of its own. *)
Definition main_report (e : exn) : string :=
  (if isinstance e GeminiAPIError || isinstance e ValueError
   then "Error: "
   else "An unexpected error occurred: ") +:+ exn_str e.

(** What the three [except] clauses of [main] come to: an instance of
    [Exception] is reported on a line, anything else goes on. *)
Definition main_except (e : exn) : M unit :=
  if isinstance e Exception then print (main_report e) else raise e.

(** The lines printed in a run of events, and the calls of a model in
    it. *)
Definition printed (run : list event) : list string :=
  omap (λ ev, match ev with EvPrint line => Some line | _ => None end) run.

Definition is_model_call (ev : event) : bool :=
  match ev with
  | EvGenerateContent _ _ _ _ => true
  | _ => false
  end.

Definition model_calls (run : list event) : list event :=
  List.filter is_model_call run.

(** The events that belong to a generation: the call of a model, the
    status check and the reads of the text of its response. *)
Definition is_generation_event (ev : event) : bool :=
  match ev with
  | EvGenerateContent _ _ _ _ | EvRaiseForStatus _ | EvText _ => true
  | _ => false
  end.

End Client.

Arguments Self : clear implicits.
Arguments event : clear implicits.
Arguments State : clear implicits.
Arguments M : clear implicits.

(** ** Stub libraries

    A stub is given by what each of its five operations does; its world
    counts the calls it has received.  A model is the name it was asked
    for, a response the prompt it answers. *)
Record behaviour := mkBehaviour {
  on_configure : option exn;
  on_GenerativeModel : option exn;
  on_generate_content : option exn;
  on_raise_for_status : option exn;
  on_text : outcome OptStr
}.

Definition returns_unless {A} (fault : option exn) (a : A) : outcome A :=
  match fault with
  | None => Return a
  | Some e => Raise e
  end.

Definition stub (b : behaviour) : Genai nat string string := {|
  genai_configure _ w := (returns_unless (on_configure b) tt, S w);
  genai_GenerativeModel name w :=
    (returns_unless (on_GenerativeModel b) name, S w);
  model_generate_content _ prompt _ _ w :=
    (returns_unless (on_generate_content b) prompt, S w);
  response_raise_for_status _ w :=
    (returns_unless (on_raise_for_status b) tt, S w);
  response_text _ w := (on_text b, S w)
|}.

Definition answers (t : OptStr) : behaviour :=
  mkBehaviour None None None None (Return t).

Definition runtime_error : exn :=
  Exn (OtherClass "RuntimeError" Exception) "boom" None.
Definition not_found : exn :=
  Exn (OtherClass "NotFound" GoogleAPIError) "404 model not found" None.
Definition interrupted : exn := Exn KeyboardInterrupt "" None.

Definition configure_fails (e : exn) : behaviour :=
  mkBehaviour (Some e) None None None (Return (Some "a poem")).
Definition acquisition_fails (e : exn) : behaviour :=
  mkBehaviour None (Some e) None None (Return (Some "a poem")).
Definition generation_fails (e : exn) : behaviour :=
  mkBehaviour None None (Some e) None (Return (Some "a poem")).
Definition status_fails (e : exn) : behaviour :=
  mkBehaviour None None None (Some e) (Return (Some "a poem")).

(** A stub whose responses lose their text once it has been read: the
    read made in world 2 gives a poem, every other read gives [None]. *)
Definition forgetful : Genai nat string string := {|
  genai_configure _ w := (Return tt, S w);
  genai_GenerativeModel name w := (Return name, S w);
  model_generate_content _ prompt _ _ w := (Return prompt, S w);
  response_raise_for_status _ w := (Return tt, S w);
  response_text _ w :=
    (Return (if Nat.eqb w 2 then Some "a poem" else None), S w)
|}.

(** Environments: one in which [GEMINI_API_KEY] has the given value, with
    the key ["k"] and with the empty key. *)
Definition with_key (value : string) (ok : has_nul value = false)
  : Environ :=
  Environ_insert "GEMINI_API_KEY" value ok Environ_empty.

Definition key_k : Environ := with_key "k" eq_refl.
Definition key_empty : Environ := with_key "" eq_refl.

(** A key with a NUL byte in it. *)
Definition nul_key : string := "a" +:+ String Ascii.zero "b".

(** A fresh process with the given environment, and one in which a client
    for model ["m"] has been constructed with key ["k"]. *)
Definition fresh_process (env : Environ) : State nat string string :=
  {| heap := []; os_environ := env; trace := []; lib := 0 |}.

Definition constructed : State nat string string :=
  {| heap := [{| api_key := Some "k"; model := Some "m" |}];
     os_environ := Environ_insert "GOOGLE_API_KEY" "k" eq_refl Environ_empty;
     trace := []; lib := 0 |}.

(** * Properties *)

Section Properties.

Context {W Model Response : Type} {G : Genai W Model Response}.

Implicit Types (st : State W Model Response) (self : nat) (e : exn).
Implicit Types (key model_name prompt : string).

(** ** Small facts *)

Lemma truthy_Some key : key ≠ "" → truthy (Some key) = true.
Proof.
  intros Hne. unfold truthy.
  destruct (String.eqb_spec key ""); [contradiction | reflexivity].
Qed.

Lemma falsy_cases (t : OptStr) :
  truthy t = false ↔ t = None ∨ t = Some "".
Proof.
  destruct t as [s|]; simpl.
  - destruct (String.eqb_spec s ""); subst; simpl; split;
      try (intros; congruence); auto.
    intros [?|[=]]; congruence.
  - split; auto.
Qed.

Lemma alter_last {A} (f : A → A) (l : list A) (x : A) :
  alter f (length l) (l ++ [x]) = l ++ [f x].
Proof.
  induction l as [|a l IH]; simpl; [reflexivity | f_equal; exact IH].
Qed.

Lemma lookup_last {A} (l : list A) (x : A) :
  (l ++ [x]) !! length l = Some x.
Proof. induction l as [|a l IH]; simpl; [reflexivity | exact IH]. Qed.

(** ** The assignment to [os.environ] *)

Lemma environ_set_GOOGLE_API_KEY (value : string) st
    (Hnul : has_nul value = false) :
  environ_set "GOOGLE_API_KEY" value st =
  (Return tt,
   mkState (heap st)
     (Environ_insert "GOOGLE_API_KEY" value Hnul (os_environ st))
     (trace st ++ [EvEnvironSet "GOOGLE_API_KEY" value]) (lib st)).
Proof.
  unfold environ_set.
  change (has_nul "GOOGLE_API_KEY") with false.
  change (illegal_name "GOOGLE_API_KEY") with false.
  destruct (decide (has_nul value = false)) as [ok|]; [|contradiction].
  by rewrite (proof_irrel ok Hnul).
Qed.

Lemma environ_set_nul (name value : string) st :
  has_nul value = true →
  environ_set name value st = (Raise embedded_null_byte, st).
Proof.
  intros Hnul. unfold environ_set.
  destruct (has_nul name); [reflexivity|].
  destruct (decide (has_nul value = false)); [congruence | reflexivity].
Qed.

(** What is read from the environment holds no NUL byte. *)
Lemma environ_nul_free (name value : string) st :
  environ st !! name = Some value → has_nul value = false.
Proof.
  unfold environ. destruct (os_environ st) as [env ok]. cbn.
  apply bool_decide_unpack in ok. apply ok.
Qed.

(** ** The constructor, step by step *)

(** What [GeminiAPIClient(key, model_name)] does for a key that passes the
    check of line 57 and the assignment of line 61, by the outcomes of the
    two calls into the library. *)
Lemma GeminiAPIClient_accepted key model_name st
    (Hnul : has_nul key = false) :
  key ≠ "" →
  GeminiAPIClient (Some key) model_name st =
  let env := Environ_insert "GOOGLE_API_KEY" key Hnul (os_environ st) in
  let set := EvEnvironSet "GOOGLE_API_KEY" key in
  match genai_configure key (lib st) with
  | (Raise e, w) =>
      (Raise e,
       mkState (heap st ++ [mkSelf (Some key) None]) env
         (trace st ++ [set; EvConfigure key]) w)
  | (Return _, w) =>
      match genai_GenerativeModel model_name w with
      | (Return m, w') =>
          (Return (length (heap st)),
           mkState (heap st ++ [mkSelf (Some key) (Some m)]) env
             (trace st ++ [set; EvConfigure key;
                           EvGenerativeModel model_name]) w')
      | (Raise e, w') =>
          (Raise (if isinstance e Exception
                  then ModelInitializationError e else e),
           mkState (heap st ++ [mkSelf (Some key) None]) env
             (trace st ++ [set; EvConfigure key;
                           EvGenerativeModel model_name]) w')
      end
  end.
Proof.
  intros Hne.
  unfold GeminiAPIClient, __init__, bind, new_object, set_api_key,
    get_api_key, try_except, call, set_model, ret, raise.
  rewrite (truthy_Some _ Hne).
  cbn [negb as_str heap os_environ trace lib].
  rewrite alter_last, lookup_last. cbn [mbind option_bind api_key].
  rewrite (environ_set_GOOGLE_API_KEY _ _ Hnul).
  cbn [heap os_environ trace lib]. rewrite lookup_last.
  cbn -[Environ_insert].
  destruct (genai_configure key (lib st)) as [[[]|e] w];
    cbn -[Environ_insert].
  - destruct (genai_GenerativeModel model_name w) as [[m|e] w'];
      cbn -[Environ_insert].
    + rewrite alter_last. cbn -[Environ_insert]. by rewrite <- !app_assoc.
    + unfold isinstance. destruct (issubclass (exn_class e) Exception);
        cbn -[Environ_insert]; by rewrite <- !app_assoc.
  - by rewrite <- !app_assoc.
Qed.

(** A key with a NUL byte passes the check of line 57 and is stored in
    the object, and the assignment of line 61 raises: nothing is set in
    the environment and the library is not called. *)
Lemma GeminiAPIClient_nul key model_name st :
  key ≠ "" →
  has_nul key = true →
  GeminiAPIClient (Some key) model_name st =
  (Raise embedded_null_byte,
   mkState (heap st ++ [mkSelf (Some key) None]) (os_environ st) (trace st)
     (lib st)).
Proof.
  intros Hne Hnul.
  unfold GeminiAPIClient, __init__, bind, new_object, set_api_key,
    get_api_key.
  rewrite (truthy_Some _ Hne).
  cbn [negb as_str heap os_environ trace lib].
  rewrite alter_last, lookup_last. cbn [mbind option_bind api_key].
  by rewrite (environ_set_nul _ _ _ Hnul).
Qed.

Lemma GeminiAPIClient_rejected (api_key : OptStr) model_name st :
  truthy api_key = false →
  GeminiAPIClient api_key model_name st =
  (Raise InvalidCredential,
   mkState (heap st ++ [blank]) (os_environ st) (trace st) (lib st)).
Proof.
  intros Hf. unfold GeminiAPIClient, __init__, bind, new_object, raise.
  rewrite Hf. reflexivity.
Qed.

(** ** The method, step by step *)

Lemma pyclass_eqb_eq (c d : pyclass) : pyclass_eqb c d = true → c = d.
Proof.
  revert d. induction c as [| | | | |n b IH]; intros [| | | | |n' b'];
    simpl; try congruence.
  intros [Hn Hb]%andb_prop.
  apply String.eqb_eq in Hn. apply IH in Hb. congruence.
Qed.

(** Every class below [GoogleAPIError] is below [Exception]. *)
Lemma GoogleAPIError_is_Exception (c : pyclass) :
  issubclass c GoogleAPIError = true → issubclass c Exception = true.
Proof.
  induction c as [| | | | |n b IH]; simpl; try congruence; auto.
Qed.

(** The two clauses together: an instance of [Exception] is replaced by
    its [ContentGenerationError], anything else goes on as it is. *)
Lemma generate_content_clauses_spec e st :
  handle generate_content_clauses e st =
  (Raise (if isinstance e Exception then ContentGenerationError e else e),
   st).
Proof.
  unfold generate_content_clauses, ContentGenerationError, isinstance.
  cbn [handle]. unfold isinstance.
  destruct (issubclass (exn_class e) GoogleAPIError) eqn:Hg.
  - rewrite (GoogleAPIError_is_Exception _ Hg). reflexivity.
  - destruct (issubclass (exn_class e) Exception); reflexivity.
Qed.

(** What [generate_content] does on a client that holds a model, by the
    outcomes of the calls into the library. *)
Lemma generate_content_steps self prompt (gc ss : option (gmap string Any))
    st m :
  holds_model st self m →
  generate_content self prompt gc ss st =
  let surface e : outcome OptStr :=
    Raise (if isinstance e Exception then ContentGenerationError e else e) in
  let after run w :=
    mkState (heap st) (os_environ st) (trace st ++ run) w in
  let g := EvGenerateContent m prompt gc ss in
  match model_generate_content m prompt gc ss (lib st) with
  | (Raise e, w1) => (surface e, after [g] w1)
  | (Return r, w1) =>
      match response_raise_for_status r w1 with
      | (Raise e, w2) => (surface e, after [g; EvRaiseForStatus r] w2)
      | (Return _, w2) =>
          match response_text r w2 with
          | (Raise e, w3) =>
              (surface e, after [g; EvRaiseForStatus r; EvText r] w3)
          | (Return t, w3) =>
              if truthy t then
                match response_text r w3 with
                | (Raise e, w4) =>
                    (surface e,
                     after [g; EvRaiseForStatus r; EvText r; EvText r] w4)
                | (Return t', w4) =>
                    (Return t',
                     after [g; EvRaiseForStatus r; EvText r; EvText r] w4)
                end
              else
                (Return (Some no_content),
                 after [g; EvRaiseForStatus r; EvText r] w3)
          end
      end
  end.
Proof.
  unfold holds_model. intros Hm.
  unfold generate_content, try_except, generate_content_body, bind,
    get_model, call, ret.
  rewrite Hm. cbn -[handle generate_content_clauses].
  destruct (model_generate_content m prompt gc ss (lib st))
    as [[r|e] w1]; cbn -[handle generate_content_clauses]; [|by rewrite generate_content_clauses_spec].
  destruct (response_raise_for_status r w1) as [[[]|e] w2]; cbn -[handle generate_content_clauses];
    [|by rewrite generate_content_clauses_spec, <- !app_assoc].
  destruct (response_text r w2) as [[t|e] w3]; cbn -[handle generate_content_clauses];
    [|by rewrite generate_content_clauses_spec, <- !app_assoc].
  destruct (truthy t); cbn -[handle generate_content_clauses]; [|by rewrite <- !app_assoc].
  destruct (response_text r w3) as [[t'|e] w4]; cbn -[handle generate_content_clauses];
    [|rewrite generate_content_clauses_spec]; by rewrite <- !app_assoc.
Qed.

(** On an object without a [model] attribute the [AttributeError] of line
    87 is handled like any other exception of the body. *)
Lemma generate_content_without_model self prompt
    (gc ss : option (gmap string Any)) st :
  heap st !! self ≫= model = None →
  generate_content self prompt gc ss st =
  (Raise (ContentGenerationError (no_attribute "model")), st).
Proof.
  intros Hm.
  unfold generate_content, try_except, generate_content_body, bind,
    get_model.
  rewrite Hm. by rewrite generate_content_clauses_spec.
Qed.

(** The method assigns no attribute and no environment variable. *)
Lemma generate_content_frame self prompt (gc ss : option (gmap string Any))
    st :
  heap (generate_content self prompt gc ss st).2 = heap st ∧
  environ (generate_content self prompt gc ss st).2 = environ st.
Proof.
  destruct (heap st !! self ≫= model) as [m|] eqn:Hm.
  - rewrite (generate_content_steps _ _ _ _ _ m Hm). cbv zeta.
    repeat (match goal with
            | |- context [match ?c with _ => _ end] => destruct c
            | |- context [if ?c then _ else _] => destruct c
            end); auto.
  - rewrite (generate_content_without_model _ _ _ _ _ Hm). auto.
Qed.

(** ** The constructor *)

(** C4. For every empty or absent credential ([""] or [None]),
    construction fails with [InvalidCredential], and no ambient state is
    mutated: the environment is as it was, and so is the library, to which
    no call was made. *)
Theorem construction_rejects_missing_credential (api_key : OptStr)
    model_name st :
  api_key = None ∨ api_key = Some "" →
  let r := GeminiAPIClient api_key model_name st in
  r.1 = Raise InvalidCredential ∧
  environ r.2 = environ st ∧
  trace r.2 = trace st ∧
  lib r.2 = lib st.
Proof.
  intros Hk%falsy_cases r. subst r.
  rewrite (GeminiAPIClient_rejected _ _ _ Hk). auto.
Qed.

(** C10, as amended.  For every non-empty credential that holds no NUL
    byte, construction sets the process-wide environment credential to
    exactly that credential before it attempts to acquire the model
    handle: setting it is the first thing construction does outside the
    object, and it holds in the final state whatever the outcome, in
    particular when construction fails with [ModelInitializationError];
    nothing is rolled back. *)
Theorem construction_sets_ambient_credential key model_name st :
  key ≠ "" →
  has_nul key = false →
  let r := GeminiAPIClient (Some key) model_name st in
  environ r.2 = <["GOOGLE_API_KEY" := key]> (environ st) ∧
  environ r.2 !! "GOOGLE_API_KEY" = Some key ∧
  (∃ rest,
      trace r.2 = trace st ++ EvEnvironSet "GOOGLE_API_KEY" key :: rest) ∧
  (∀ e w w',
      genai_configure key (lib st) = (Return tt, w) →
      genai_GenerativeModel model_name w = (Raise e, w') →
      isinstance e Exception = true →
      r.1 = Raise (ModelInitializationError e) ∧
      environ r.2 !! "GOOGLE_API_KEY" = Some key).
Proof.
  intros Hne Hnul r. subst r.
  rewrite (GeminiAPIClient_accepted _ _ _ Hnul Hne). cbv zeta.
  destruct (genai_configure key (lib st)) as [[[]|e0] w0].
  - destruct (genai_GenerativeModel model_name w0) as [[m|e1] w1] eqn:Ha;
      cbn; (split; [reflexivity|]); (split; [apply lookup_insert_eq|]);
      (split; [eauto|]); intros e w w' [= <-] Hacq; rewrite Ha in Hacq;
      [discriminate|].
    injection Hacq as <- <-. intros ->.
    split; [reflexivity | apply lookup_insert_eq].
  - cbn. split; [reflexivity|]. split; [apply lookup_insert_eq|].
    split; [eauto|]. congruence.
Qed.

(** C5, as amended.  For every non-empty credential that holds no NUL
    byte and with which [genai.configure] returns: if the acquisition of
    the model handle raises an instance of [Exception], construction fails
    with the [ModelInitializationError] of it, whose cause it is; if the
    acquisition returns a handle, construction succeeds and the new client
    holds the credential and that handle. *)
Theorem construction_outcomes key model_name st w :
  key ≠ "" →
  has_nul key = false →
  genai_configure key (lib st) = (Return tt, w) →
  let r := GeminiAPIClient (Some key) model_name st in
  (∀ e w',
      genai_GenerativeModel model_name w = (Raise e, w') →
      isinstance e Exception = true →
      r.1 = Raise (ModelInitializationError e) ∧
      exn_class (ModelInitializationError e) = GeminiAPIError ∧
      exn_cause (ModelInitializationError e) = Some e) ∧
  (∀ m w',
      genai_GenerativeModel model_name w = (Return m, w') →
      ∃ self, r.1 = Return self ∧
              heap r.2 !! self = Some (mkSelf (Some key) (Some m))).
Proof.
  intros Hne Hnul Hcfg r. subst r.
  rewrite (GeminiAPIClient_accepted _ _ _ Hnul Hne). cbv zeta.
  rewrite Hcfg. split.
  - intros e w' -> ->. auto.
  - intros m w' ->. exists (length (heap st)). split; [reflexivity|].
    apply lookup_last.
Qed.

(** C6, as amended.  At the boundary of the facade, for a credential
    that reaches the library (one that is non-empty and holds no NUL
    byte), an exception that the library raises while the model handle is
    acquired, or in the course of a [generate_content] call, is caught and
    raised anew as a [GeminiAPIError] (the [ModelInitializationError],
    respectively the [ContentGenerationError], of it) when it is an
    instance of [Exception]; one that [genai.configure] raises, and one
    that is no instance of [Exception], reaches the caller as it is. *)
Theorem facade_boundary key model_name prompt
    (gc ss : option (gmap string Any)) self st e :
  key ≠ "" →
  has_nul key = false →
  (∀ w, genai_configure key (lib st) = (Raise e, w) →
        (GeminiAPIClient (Some key) model_name st).1 = Raise e) ∧
  (∀ w w',
      genai_configure key (lib st) = (Return tt, w) →
      genai_GenerativeModel model_name w = (Raise e, w') →
      (GeminiAPIClient (Some key) model_name st).1 =
      Raise (if isinstance e Exception
             then ModelInitializationError e else e)) ∧
  (raised_in_call self prompt gc ss st e →
   (generate_content self prompt gc ss st).1 =
   Raise (if isinstance e Exception then ContentGenerationError e else e)).
Proof.
  intros Hne Hnul. rewrite (GeminiAPIClient_accepted _ _ _ Hnul Hne).
  cbv zeta. repeat split.
  - by intros w ->.
  - by intros w w' -> ->.
  - intros [m w Hm Hg | m r w1 w2 Hm Hg Hs | m r w1 w2 w3 Hm Hg Hs Ht
            | m r w1 w2 t w3 w4 Hm Hg Hs Ht Htrue Ht'];
      rewrite (generate_content_steps _ _ _ _ _ m Hm); cbv zeta;
      rewrite Hg; try rewrite Hs; try rewrite Ht; try rewrite Htrue;
      try rewrite Ht'; reflexivity.
Qed.

(** ** The method *)

(** C1. For every prompt for which the call of the model succeeds (the
    model returns a response and its status check passes) and yields
    non-empty text, [generate_content] returns that exact text. *)
Theorem generate_content_returns_the_text self prompt
    (gc ss : option (gmap string Any)) st m r w1 w2 text :
  holds_model st self m →
  model_generate_content m prompt gc ss (lib st) = (Return r, w1) →
  response_raise_for_status r w1 = (Return tt, w2) →
  (∀ w, (response_text r w).1 = Return (Some text)) →
  text ≠ "" →
  (generate_content self prompt gc ss st).1 = Return (Some text).
Proof.
  intros Hm Hg Hs Ht Hne.
  rewrite (generate_content_steps _ _ _ _ _ m Hm). cbv zeta.
  rewrite Hg, Hs.
  pose proof (Ht w2) as H2.
  destruct (response_text r w2) as [o2 w3]. cbn in H2. subst o2.
  rewrite (truthy_Some _ Hne).
  pose proof (Ht w3) as H3.
  destruct (response_text r w3) as [o3 w4]. cbn in H3. subst o3.
  reflexivity.
Qed.

(** C2. For every prompt for which the call of the model succeeds but
    yields empty or absent text, [generate_content] returns the literal
    ["No content generated."]; it does not fail. *)
Theorem generate_content_no_content self prompt
    (gc ss : option (gmap string Any)) st m r w1 w2 t w3 :
  holds_model st self m →
  model_generate_content m prompt gc ss (lib st) = (Return r, w1) →
  response_raise_for_status r w1 = (Return tt, w2) →
  response_text r w2 = (Return t, w3) →
  t = None ∨ t = Some "" →
  (generate_content self prompt gc ss st).1 =
  Return (Some "No content generated.").
Proof.
  intros Hm Hg Hs Ht Hempty%falsy_cases.
  rewrite (generate_content_steps _ _ _ _ _ m Hm). cbv zeta.
  rewrite Hg, Hs, Ht, Hempty. reflexivity.
Qed.

(** C3, as amended.  For every exception that is an instance of
    [Exception] and that the library raises in the course of a
    [generate_content] call, be it a [GoogleAPIError] or any other,
    [generate_content] raises a [GeminiAPIError], the
    [ContentGenerationError] of it, whose recorded cause is the original
    exception. *)
Theorem generate_content_wraps_exceptions self prompt
    (gc ss : option (gmap string Any)) st e :
  raised_in_call self prompt gc ss st e →
  isinstance e Exception = true →
  (generate_content self prompt gc ss st).1 =
  Raise (ContentGenerationError e) ∧
  exn_class (ContentGenerationError e) = GeminiAPIError ∧
  exn_cause (ContentGenerationError e) = Some e.
Proof.
  intros Hraised Hexc. split; [|split; reflexivity].
  destruct Hraised as [m w Hm Hg | m r w1 w2 Hm Hg Hs
                      | m r w1 w2 w3 Hm Hg Hs Ht
                      | m r w1 w2 t w3 w4 Hm Hg Hs Ht Htrue Ht'];
    rewrite (generate_content_steps _ _ _ _ _ m Hm); cbv zeta;
    rewrite Hg; try rewrite Hs; try rewrite Ht; try rewrite Htrue;
    try rewrite Ht'; cbn; by rewrite Hexc.
Qed.

(** The events of one [generate_content] call are a prefix of: the call of
    the model, the status check, the text read, the text read again. *)
Lemma generate_content_run self prompt (gc ss : option (gmap string Any))
    st :
  ∃ run,
    trace (generate_content self prompt gc ss st).2 = trace st ++ run ∧
    (run = [] ∨
     ∃ m, run = [EvGenerateContent m prompt gc ss] ∨
       ∃ r, run = [EvGenerateContent m prompt gc ss; EvRaiseForStatus r] ∨
            run = [EvGenerateContent m prompt gc ss; EvRaiseForStatus r;
                   EvText r] ∨
            run = [EvGenerateContent m prompt gc ss; EvRaiseForStatus r;
                   EvText r; EvText r]).
Proof.
  destruct (heap st !! self ≫= model) as [m|] eqn:Hm.
  - rewrite (generate_content_steps _ _ _ _ _ m Hm). cbv zeta.
    destruct (model_generate_content m prompt gc ss (lib st))
      as [[r|e] w1];
      [|by eexists; split; [reflexivity | right; exists m; left]].
    destruct (response_raise_for_status r w1) as [[[]|e] w2];
      [|by eexists; split;
           [reflexivity | right; exists m; right; exists r; auto]].
    destruct (response_text r w2) as [[t|e] w3];
      [|by eexists; split;
           [reflexivity | right; exists m; right; exists r; auto]].
    destruct (truthy t);
      [|by eexists; split;
           [reflexivity | right; exists m; right; exists r; auto]].
    destruct (response_text r w3) as [[t'|e] w4];
      eexists;
      (split; [reflexivity | right; exists m; right; exists r; auto]).
  - rewrite (generate_content_without_model _ _ _ _ _ Hm).
    exists []. split; [by rewrite app_nil_r | by left].
Qed.

(** C7. In every [generate_content] call the status of the response is
    checked before its text is read, and a status check that does not
    pass, whatever it raises, makes the call fail: it returns nothing, and
    the text is never read. *)
Theorem status_checked_before_text self prompt
    (gc ss : option (gmap string Any)) st :
  let result := generate_content self prompt gc ss st in
  ∃ run,
    trace result.2 = trace st ++ run ∧
    status_before_text run ∧
    (∀ m r w1 e w2,
        holds_model st self m →
        model_generate_content m prompt gc ss (lib st) = (Return r, w1) →
        response_raise_for_status r w1 = (Raise e, w2) →
        (∃ e', result.1 = Raise e') ∧ ∀ r', EvText r' ∉ run).
Proof.
  intros result. subst result.
  destruct (generate_content_run self prompt gc ss st) as (run & Htr & Hrun).
  exists run. split; [exact Htr|]. split.
  - intros i r' Hi.
    destruct Hrun as [-> | (m & [-> | (r & [-> | [-> | ->]])])];
      [done | destruct i as [|[|[|[|]]]]; simplify_eq/=; (exists 1; split; [lia | done]) ..].
  - intros m r w1 e w2 Hm Hg Hs.
    revert Htr. rewrite (generate_content_steps _ _ _ _ _ m Hm). cbv zeta.
    rewrite Hg, Hs. cbn. intros <-%app_inv_head.
    split; [eauto|]. intros r' Hin.
    repeat (apply elem_of_cons in Hin as [Hin|Hin]; [discriminate|]).
    by apply elem_of_nil in Hin.
Qed.

(** C8. Against a deterministic stub, two [generate_content] calls with
    identical arguments, one after the other, yield identical results,
    and neither changes the state of the facade: the objects, with their
    credential and model handle, are after each call what they were
    before it. *)
Theorem generate_content_idempotent self prompt
    (gc ss : option (gmap string Any)) st :
  deterministic →
  let first := generate_content self prompt gc ss st in
  let second := generate_content self prompt gc ss first.2 in
  first.1 = second.1 ∧
  heap first.2 = heap st ∧
  heap second.2 = heap first.2.
Proof.
  intros (Hg & Hs & Ht) first second.
  assert (Hheap : heap first.2 = heap st)
    by apply generate_content_frame.
  split; [|split; [exact Hheap | apply generate_content_frame]].
  subst second. revert Hheap. generalize (first.2). subst first.
  intros st1 Hheap.
  destruct (heap st !! self ≫= model) as [m|] eqn:Hm.
  - assert (Hm1 : holds_model st1 self m)
      by (unfold holds_model; by rewrite Hheap).
    rewrite (generate_content_steps _ _ _ _ _ m Hm),
      (generate_content_steps _ _ _ _ _ m Hm1). cbv zeta.
    pose proof (Hg m prompt gc ss (lib st) (lib st1)) as Eg.
    destruct (model_generate_content m prompt gc ss (lib st))
      as [o w1], (model_generate_content m prompt gc ss (lib st1))
      as [o' w1']. cbn in Eg. subst o'. destruct o as [r|e]; [|done].
    pose proof (Hs r w1 w1') as Es.
    destruct (response_raise_for_status r w1) as [o w2],
      (response_raise_for_status r w1') as [o' w2']. cbn in Es. subst o'.
    destruct o as [[]|e]; [|done].
    pose proof (Ht r w2 w2') as Et.
    destruct (response_text r w2) as [o w3],
      (response_text r w2') as [o' w3']. cbn in Et. subst o'.
    destruct o as [t|e]; [|done].
    destruct (truthy t); [|done].
    pose proof (Ht r w3 w3') as Et'.
    destruct (response_text r w3) as [o w4],
      (response_text r w3') as [o' w4']. cbn in Et'. subst o'.
    by destruct o.
  - assert (Hm1 : heap st1 !! self ≫= model = None) by by rewrite Hheap.
    by rewrite (generate_content_without_model _ _ _ _ _ Hm),
      (generate_content_without_model _ _ _ _ _ Hm1).
Qed.

(** ** The demonstration *)

(** C9, as amended.  When [main] is called with [GEMINI_API_KEY] absent
    from the environment, it prints a diagnostic and does nothing else:
    no client is constructed and no call is made.  [main] then returns: it
    raises nothing, and asks for no exit status. *)
Theorem main_without_key st :
  environ st !! "GEMINI_API_KEY" = None →
  main st =
  (Return tt,
   mkState (heap st) (os_environ st)
     (trace st ++ [EvPrint missing_key_message]) (lib st)).
Proof.
  intros Habsent. unfold main, bind, environ_get.
  rewrite Habsent. reflexivity.
Qed.

End Properties.

(** * The theorems at work *)

(** ** Runs against stubs *)

Lemma construction_rejects_missing_credential_witness :
  (GeminiAPIClient (G := stub (answers None)) (Some "") "m"
     (fresh_process Environ_empty)).1 = Raise InvalidCredential ∧
  environ (GeminiAPIClient (G := stub (answers None)) (Some "") "m"
             (fresh_process Environ_empty)).2 = ∅.
Proof.
  destruct (construction_rejects_missing_credential
              (G := stub (answers None)) (Some "") "m"
              (fresh_process Environ_empty))
    as (Hraise & Henv & _ & _).
  - right. reflexivity.
  - split; [exact Hraise | exact Henv].
Defined.

Lemma construction_sets_ambient_credential_witness :
  (GeminiAPIClient (G := stub (acquisition_fails runtime_error))
     (Some "k") "m" (fresh_process Environ_empty)).1 =
  Raise (ModelInitializationError runtime_error) ∧
  environ (GeminiAPIClient (G := stub (acquisition_fails runtime_error))
             (Some "k") "m" (fresh_process Environ_empty)).2
    !! "GOOGLE_API_KEY" = Some "k".
Proof.
  destruct (construction_sets_ambient_credential
              (G := stub (acquisition_fails runtime_error))
              "k" "m" (fresh_process Environ_empty))
    as (_ & _ & _ & Hfail).
  - discriminate.
  - reflexivity.
  - apply (Hfail runtime_error 1 2); reflexivity.
Defined.

Lemma construction_outcomes_witness :
  ∃ self,
    (GeminiAPIClient (G := stub (answers (Some "a poem"))) (Some "k") "m"
       (fresh_process Environ_empty)).1 = Return self ∧
    heap (GeminiAPIClient (G := stub (answers (Some "a poem"))) (Some "k")
            "m" (fresh_process Environ_empty)).2 !! self =
    Some (mkSelf (Some "k") (Some "m")).
Proof.
  destruct (construction_outcomes (G := stub (answers (Some "a poem")))
              "k" "m" (fresh_process Environ_empty) 1)
    as (_ & Hok).
  - discriminate.
  - reflexivity.
  - reflexivity.
  - apply (Hok "m" 2). reflexivity.
Defined.

Lemma facade_boundary_witness :
  (generate_content (G := stub (status_fails not_found)) 0 "p" None None
     constructed).1 = Raise (ContentGenerationError not_found).
Proof.
  destruct (facade_boundary (G := stub (status_fails not_found))
              "k" "m" "p" None None 0 constructed not_found)
    as (_ & _ & Hcall).
  - discriminate.
  - reflexivity.
  - apply Hcall.
    apply (raised_by_raise_for_status (G := stub (status_fails not_found))
             0 "p" None None constructed not_found "m" "p" 1 2);
      reflexivity.
Defined.

Lemma generate_content_returns_the_text_witness :
  (generate_content (G := stub (answers (Some "a poem"))) 0 "p" None None
     constructed).1 = Return (Some "a poem").
Proof.
  apply (generate_content_returns_the_text
           (G := stub (answers (Some "a poem")))
           0 "p" None None constructed "m" "p" 1 2 "a poem");
    [reflexivity | reflexivity | reflexivity | intros w; reflexivity
    | discriminate].
Defined.

Lemma generate_content_no_content_witness :
  (generate_content (G := stub (answers None)) 0 "p" None None
     constructed).1 = Return (Some "No content generated.").
Proof.
  apply (generate_content_no_content (G := stub (answers None))
           0 "p" None None constructed "m" "p" 1 2 None 3);
    [reflexivity | reflexivity | reflexivity | reflexivity
    | left; reflexivity].
Defined.

Lemma generate_content_wraps_exceptions_witness :
  (generate_content (G := stub (generation_fails not_found)) 0 "p" None
     None constructed).1 = Raise (ContentGenerationError not_found) ∧
  exn_class (ContentGenerationError not_found) = GeminiAPIError ∧
  exn_cause (ContentGenerationError not_found) = Some not_found.
Proof.
  apply (generate_content_wraps_exceptions
           (G := stub (generation_fails not_found))
           0 "p" None None constructed not_found).
  - apply (raised_by_generate_content
             (G := stub (generation_fails not_found))
             0 "p" None None constructed not_found "m" 1); reflexivity.
  - reflexivity.
Defined.

Lemma status_checked_before_text_witness :
  (∃ e, (generate_content (G := stub (status_fails runtime_error)) 0 "p"
           None None constructed).1 = Raise e) ∧
  trace (generate_content (G := stub (status_fails runtime_error)) 0 "p"
           None None constructed).2 =
  [EvGenerateContent "m" "p" None None; EvRaiseForStatus "p"].
Proof.
  destruct (status_checked_before_text
              (G := stub (status_fails runtime_error))
              0 "p" None None constructed)
    as (run & Htrace & _ & Hfail).
  split.
  - apply (Hfail "m" "p" 1 runtime_error 2); reflexivity.
  - reflexivity.
Defined.

Lemma generate_content_idempotent_witness :
  (generate_content (G := stub (answers (Some "a poem"))) 0 "p" None None
     constructed).1 =
  (generate_content (G := stub (answers (Some "a poem"))) 0 "p" None None
     (generate_content (G := stub (answers (Some "a poem"))) 0 "p" None
        None constructed).2).1.
Proof.
  apply (generate_content_idempotent
           (G := stub (answers (Some "a poem"))) 0 "p" None None
           constructed).
  repeat split; intros; reflexivity.
Defined.

Lemma main_without_key_witness :
  main (G := stub (answers (Some "a poem"))) (fresh_process Environ_empty) =
  (Return tt,
   mkState [] Environ_empty [EvPrint missing_key_message] 0).
Proof.
  apply (main_without_key (G := stub (answers (Some "a poem")))
           (fresh_process Environ_empty)).
  reflexivity.
Defined.

(** ** Where the specification and the module part *)

(** C3 as stated fails: an interrupt that arrives while the model is
    called is no instance of [Exception], no clause of the [try] names it,
    and the caller receives it as it is. *)
Lemma generate_content_lets_an_interrupt_through :
  raised_in_call (G := stub (generation_fails interrupted)) 0 "p" None None
    constructed interrupted ∧
  (generate_content (G := stub (generation_fails interrupted)) 0 "p" None
     None constructed).1 = Raise interrupted ∧
  exn_class interrupted ≠ GeminiAPIError ∧
  exn_cause interrupted = None.
Proof.
  split; [|split; [reflexivity | split; [discriminate | reflexivity]]].
  apply (raised_by_generate_content
           (G := stub (generation_fails interrupted))
           0 "p" None None constructed interrupted "m" 1); reflexivity.
Qed.

(** C5 as stated fails in three ways.  With a library whose [configure]
    raises, the acquisition of the model handle is never reached, and
    would not raise, yet construction does not succeed; an interrupt
    raised by the acquisition is not wrapped; and a key with a NUL byte is
    refused by [os.environ] before the library is called at all. *)
Lemma construction_fails_otherwise :
  ((∀ w, (genai_GenerativeModel
            (Genai := stub (configure_fails runtime_error)) "m" w).1 =
         Return "m") ∧
   (GeminiAPIClient (G := stub (configure_fails runtime_error)) (Some "k")
      "m" (fresh_process Environ_empty)).1 = Raise runtime_error) ∧
  ((genai_GenerativeModel (Genai := stub (acquisition_fails interrupted))
      "m" 1).1 = Raise interrupted ∧
   (GeminiAPIClient (G := stub (acquisition_fails interrupted)) (Some "k")
      "m" (fresh_process Environ_empty)).1 = Raise interrupted ∧
   exn_class interrupted ≠ GeminiAPIError) ∧
  (nul_key ≠ "" ∧
   (∀ w, (genai_GenerativeModel
            (Genai := stub (answers (Some "a poem"))) "m" w).1 =
         Return "m") ∧
   (GeminiAPIClient (G := stub (answers (Some "a poem"))) (Some nul_key)
      "m" (fresh_process Environ_empty)).1 = Raise embedded_null_byte ∧
   exn_class embedded_null_byte ≠ GeminiAPIError).
Proof.
  repeat split; try (intros; reflexivity); discriminate.
Qed.

(** C6 as stated fails: [genai.configure] is called outside every [try],
    and what it raises reaches the caller under its own class, which is
    none of the three kinds. *)
Lemma configure_error_reaches_caller :
  genai_configure (Genai := stub (configure_fails runtime_error)) "k" 0 =
  (Raise runtime_error, 1) ∧
  (GeminiAPIClient (G := stub (configure_fails runtime_error)) (Some "k")
     "m" (fresh_process Environ_empty)).1 = Raise runtime_error ∧
  exn_class runtime_error ≠ ValueError ∧
  exn_class runtime_error ≠ GeminiAPIError.
Proof.
  repeat split; try (intros; reflexivity); discriminate.
Qed.

(** C9 as stated fails.  Run as a script, the file as it is reports no
    configuration error: it does not compile, [main] is not called and
    nothing is printed.  And [main], where it is called without
    [GEMINI_API_KEY], returns: the status 1 of the script owes nothing to
    the missing key. *)
Lemma script_reports_nothing :
  environ (fresh_process Environ_empty) !! "GEMINI_API_KEY" = None ∧
  run_script (fresh_process Environ_empty) =
  (1%Z, fresh_process Environ_empty) ∧
  printed (trace (run_script (fresh_process Environ_empty)).2) = [] ∧
  (main (G := stub (answers (Some "a poem")))
     (fresh_process Environ_empty)).1 = Return tt.
Proof.
  repeat split; reflexivity.
Qed.

(** C10 as stated fails: a key with a NUL byte is not empty, and the
    assignment of line 61 raises [ValueError] for it; the environment
    credential is not set, and construction ends there. *)
Lemma construction_with_nul_key :
  nul_key ≠ "" ∧
  (GeminiAPIClient (G := stub (answers (Some "a poem"))) (Some nul_key) "m"
     (fresh_process Environ_empty)).1 = Raise embedded_null_byte ∧
  environ (GeminiAPIClient (G := stub (answers (Some "a poem")))
             (Some nul_key) "m" (fresh_process Environ_empty)).2
    !! "GOOGLE_API_KEY" = None ∧
  trace (GeminiAPIClient (G := stub (answers (Some "a poem")))
           (Some nul_key) "m" (fresh_process Environ_empty)).2 = [].
Proof.
  repeat split; try reflexivity; discriminate.
Qed.

(** * Further properties of the module *)

Section Further.

Context {W Model Response : Type} {G : Genai W Model Response}.

Implicit Types (st : State W Model Response) (self : nat) (e : exn).
Implicit Types (key model_name prompt : string).

(** ** [main], step by step *)

Lemma below_Exception (c d : pyclass) :
  d = GeminiAPIError ∨ d = ValueError →
  issubclass c d = true → issubclass c Exception = true.
Proof.
  intros [-> | ->]; induction c as [| | | | |n b IH]; simpl;
    try congruence; auto.
Qed.

(** The clauses of lines 131 to 136, tried in their order. *)
Lemma main_clauses_spec e st :
  handle
    [(GeminiAPIError, λ e, print ("Error: " +:+ exn_str e));
     (ValueError, λ e, print ("Error: " +:+ exn_str e));
     (Exception, λ e,
       print ("An unexpected error occurred: " +:+ exn_str e))] e st =
  main_except e st.
Proof.
  unfold main_except, main_report, isinstance. cbn [handle].
  unfold isinstance.
  destruct (issubclass (exn_class e) GeminiAPIError) eqn:Hg.
  { rewrite (below_Exception _ GeminiAPIError) by auto. reflexivity. }
  destruct (issubclass (exn_class e) ValueError) eqn:Hv.
  { rewrite (below_Exception _ ValueError) by auto. reflexivity. }
  destruct (issubclass (exn_class e) Exception); reflexivity.
Qed.

(** [main] with a key in the environment: the construction, the two
    generations and the lines printed between them, each failure handed
    to the clauses. *)
Lemma main_with_key key st :
  environ st !! "GEMINI_API_KEY" = Some key →
  key ≠ "" →
  main st =
  match GeminiAPIClient (Some key) default_model_name st with
  | (Raise e, st1) => main_except e st1
  | (Return client, st1) =>
      match generate_content client poem_prompt None None
              (print ("Prompt: " +:+ poem_prompt) st1).2 with
      | (Raise e, st2) => main_except e st2
      | (Return answer, st2) =>
          match generate_content client hamlet_prompt
                  (Some demo_generation_config) None
                  (print configuration_banner
                     (print ("Response: " +:+ str_of answer) st2).2).2 with
          | (Raise e, st3) => main_except e st3
          | (Return answer', st3) =>
              print ("Response: " +:+ str_of answer') st3
          end
      end
  end.
Proof.
  intros Hkey Hne. unfold main, bind at 1, environ_get.
  rewrite Hkey, (truthy_Some _ Hne). cbn [negb].
  unfold try_except, bind.
  destruct (GeminiAPIClient (Some key) default_model_name st)
    as [[client|e] st1]; [|apply main_clauses_spec].
  cbn [print fst snd].
  destruct (generate_content client _ None None _) as [[answer|e] st2];
    [|apply main_clauses_spec].
  cbn [print fst snd].
  destruct (generate_content client _ (Some _) None _)
    as [[answer'|e] st3]; [reflexivity | apply main_clauses_spec].
Qed.

Lemma main_except_outcome e st :
  (isinstance e Exception = true ∧
   main_except e st =
   (Return tt,
    mkState (heap st) (os_environ st)
      (trace st ++ [EvPrint (main_report e)])
      (lib st))) ∨
  (isinstance e Exception = false ∧ main_except e st = (Raise e, st)).
Proof.
  unfold main_except. destruct (isinstance e Exception); auto.
Qed.

Lemma GeminiAPIClient_environ key model_name st :
  key ≠ "" →
  has_nul key = false →
  environ (GeminiAPIClient (Some key) model_name st).2 =
  <["GOOGLE_API_KEY" := key]> (environ st).
Proof.
  intros Hne Hnul. rewrite (GeminiAPIClient_accepted _ _ _ Hnul Hne).
  cbv zeta.
  destruct (genai_configure key (lib st)) as [[[]|e] w]; [|reflexivity].
  destruct (genai_GenerativeModel model_name w) as [[m|e] w']; reflexivity.
Qed.

(** ** [main] and the script *)

(** X1. A [GEMINI_API_KEY] that is set to the empty string is treated as
    one that is not set: [main] prints the same diagnostic, constructs
    nothing, calls nothing, and returns. *)
Theorem main_with_empty_key st :
  environ st !! "GEMINI_API_KEY" = Some "" →
  main st =
  (Return tt,
   mkState (heap st) (os_environ st)
     (trace st ++ [EvPrint missing_key_message]) (lib st)).
Proof.
  intros Hempty. unfold main, bind, environ_get.
  rewrite Hempty. reflexivity.
Qed.

Lemma main_outcome st :
  (∃ st', main st = (Return tt, st')) ∨
  (∃ e st', main st = (Raise e, st') ∧ isinstance e Exception = false).
Proof.
  assert (Hexc : ∀ e st1,
             (∃ st', main_except e st1 = (Return tt, st')) ∨
             (∃ e' st', main_except e st1 = (Raise e', st') ∧
                        isinstance e' Exception = false)).
  { intros e st1.
    destruct (main_except_outcome e st1) as [[_ ->] | [Hno ->]]; eauto. }
  destruct (environ st !! "GEMINI_API_KEY") as [key|] eqn:Hkey;
    [destruct (String.eqb_spec key "") as [->|Hne]|].
  - left. eexists. unfold main, bind, environ_get. rewrite Hkey.
    reflexivity.
  - rewrite (main_with_key _ _ Hkey Hne).
    destruct (GeminiAPIClient _ _ st) as [[client|e] st1]; [|apply Hexc].
    destruct (generate_content client poem_prompt _ _ _)
      as [[answer|e] st2]; [|apply Hexc].
    destruct (generate_content client hamlet_prompt _ _ _)
      as [[answer'|e] st3]; [|apply Hexc].
    left. eexists. reflexivity.
  - left. eexists. unfold main, bind, environ_get. rewrite Hkey.
    reflexivity.
Qed.

(** X2. [main] contains every instance of [Exception]: whatever the
    library does and whatever the environment holds, [main] returns,
    unless something that is no instance of [Exception] is raised in it,
    and then that is what leaves it. *)
Theorem main_contains_exceptions st :
  (main st).1 = Return tt ∨
  ∃ e, (main st).1 = Raise e ∧ isinstance e Exception = false.
Proof.
  destruct (main_outcome st) as [(st' & ->) | (e & st' & -> & Hno)].
  - by left.
  - right. by exists e.
Qed.

(** X3. With a non-empty [GEMINI_API_KEY], [main] leaves the process
    environment with that key copied to [GOOGLE_API_KEY] and nothing else
    changed, however the construction and the two generations end. *)
Theorem main_copies_key key st :
  environ st !! "GEMINI_API_KEY" = Some key →
  key ≠ "" →
  environ (main st).2 = <["GOOGLE_API_KEY" := key]> (environ st).
Proof.
  intros Hkey Hne. rewrite (main_with_key _ _ Hkey Hne).
  assert (Hexc : ∀ e st1, environ (main_except e st1).2 = environ st1).
  { intros e st1.
    by destruct (main_except_outcome e st1) as [[_ ->] | [_ ->]]. }
  pose proof (GeminiAPIClient_environ key default_model_name st Hne
                (environ_nul_free _ _ _ Hkey)) as H1.
  destruct (GeminiAPIClient _ _ st) as [[client|e] st1]; unfold environ in *; cbn in H1;
    [|by rewrite Hexc].
  match goal with
  | |- context [generate_content client poem_prompt None None ?s] =>
      pose proof (proj2 (generate_content_frame client poem_prompt None
                           None s)) as H2;
      destruct (generate_content client poem_prompt None None s)
        as [[answer|e] st2]
  end; unfold environ in H2; cbn in H2; [|by rewrite Hexc, H2].
  match goal with
  | |- context [generate_content client hamlet_prompt ?gc None ?s] =>
      pose proof (proj2 (generate_content_frame client hamlet_prompt gc
                           None s)) as H3;
      destruct (generate_content client hamlet_prompt gc None s)
        as [[answer'|e] st3]
  end; unfold environ in H3; cbn in H3; [|by rewrite Hexc, H3, H2].
  cbn. by rewrite H3, H2.
Qed.

(** X4. When the acquisition of the model handle fails with an instance
    of [Exception], [main] prints one line, ["Error: Failed to initialize
    model: "] followed by the text of the exception, sends no prompt, and
    returns. *)
Theorem main_reports_failed_acquisition key st w e w' :
  environ st !! "GEMINI_API_KEY" = Some key →
  key ≠ "" →
  genai_configure key (lib st) = (Return tt, w) →
  genai_GenerativeModel default_model_name w = (Raise e, w') →
  isinstance e Exception = true →
  (main st).1 = Return tt ∧
  trace (main st).2 =
  trace st ++
  [EvEnvironSet "GOOGLE_API_KEY" key; EvConfigure key;
   EvGenerativeModel default_model_name;
   EvPrint ("Error: Failed to initialize model: " +:+ exn_str e)].
Proof.
  intros Hkey Hne Hcfg Hacq Hexc. rewrite (main_with_key _ _ Hkey Hne).
  rewrite (GeminiAPIClient_accepted _ _ _ (environ_nul_free _ _ _ Hkey)
             Hne).
  cbv zeta. rewrite Hcfg, Hacq, Hexc. cbn.
  split; [reflexivity | by rewrite <- app_assoc].
Qed.

(** X5. When [genai.configure] fails with an instance of [Exception],
    which the constructor does not wrap, [main] still catches it: it
    prints one line, sends nothing further to the library, and returns.
    The line begins ["An unexpected error occurred: "], or ["Error: "] if
    the exception is a [ValueError] or a [GeminiAPIError]. *)
Theorem main_reports_failed_configure key st e w :
  environ st !! "GEMINI_API_KEY" = Some key →
  key ≠ "" →
  genai_configure key (lib st) = (Raise e, w) →
  isinstance e Exception = true →
  (main st).1 = Return tt ∧
  trace (main st).2 =
  trace st ++
  [EvEnvironSet "GOOGLE_API_KEY" key; EvConfigure key;
   EvPrint (main_report e)].
Proof.
  intros Hkey Hne Hcfg Hexc. rewrite (main_with_key _ _ Hkey Hne).
  rewrite (GeminiAPIClient_accepted _ _ _ (environ_nul_free _ _ _ Hkey)
             Hne).
  cbv zeta. rewrite Hcfg. unfold main_except. rewrite Hexc. cbn.
  split; [reflexivity | by rewrite <- app_assoc].
Qed.

(** X6. When the first call of the model fails with an instance of
    [Exception], [main] prints the prompt and then one line that begins
    ["Error: "] and carries the text of the [GeminiAPIError]; the second
    prompt is never sent. *)
Theorem main_stops_after_failed_generation key st w1 m w2 e w3 :
  environ st !! "GEMINI_API_KEY" = Some key →
  key ≠ "" →
  genai_configure key (lib st) = (Return tt, w1) →
  genai_GenerativeModel default_model_name w1 = (Return m, w2) →
  model_generate_content m poem_prompt None None w2 = (Raise e, w3) →
  isinstance e Exception = true →
  (main st).1 = Return tt ∧
  trace (main st).2 =
  trace st ++
  [EvEnvironSet "GOOGLE_API_KEY" key; EvConfigure key;
   EvGenerativeModel default_model_name;
   EvPrint ("Prompt: " +:+ poem_prompt);
   EvGenerateContent m poem_prompt None None;
   EvPrint ("Error: " +:+ exn_str (ContentGenerationError e))].
Proof.
  intros Hkey Hne Hcfg Hacq Hgen Hexc.
  rewrite (main_with_key _ _ Hkey Hne).
  rewrite (GeminiAPIClient_accepted _ _ _ (environ_nul_free _ _ _ Hkey)
             Hne).
  cbv zeta. rewrite Hcfg, Hacq. cbn [print fst snd].
  rewrite (generate_content_steps _ _ _ _ _ m)
    by (unfold holds_model; cbn; by rewrite lookup_last).
  cbv zeta. cbn [lib]. rewrite Hgen, Hexc.
  split; [reflexivity|]. cbn. by rewrite <- !app_assoc.
Qed.

(** X7. When everything succeeds, [main] constructs one client for
    ['gemini-1.5-pro-latest'] and sends two prompts to it, the first with
    no options, the second with the generation configuration and no
    safety settings, and only after the first answer has been printed.
    Each answer printed is what the second read of the text of the
    response gave. *)
Theorem main_prints_both_answers key st w1 m w2
    r w3 w4 t w5 answer w6 r' w7 w8 t' w9 answer' w10 :
  environ st !! "GEMINI_API_KEY" = Some key →
  key ≠ "" →
  genai_configure key (lib st) = (Return tt, w1) →
  genai_GenerativeModel default_model_name w1 = (Return m, w2) →
  model_generate_content m poem_prompt None None w2 = (Return r, w3) →
  response_raise_for_status r w3 = (Return tt, w4) →
  response_text r w4 = (Return t, w5) →
  truthy t = true →
  response_text r w5 = (Return answer, w6) →
  model_generate_content m hamlet_prompt (Some demo_generation_config) None
    w6 = (Return r', w7) →
  response_raise_for_status r' w7 = (Return tt, w8) →
  response_text r' w8 = (Return t', w9) →
  truthy t' = true →
  response_text r' w9 = (Return answer', w10) →
  (main st).1 = Return tt ∧
  trace (main st).2 =
  trace st ++
  [EvEnvironSet "GOOGLE_API_KEY" key; EvConfigure key;
   EvGenerativeModel "gemini-1.5-pro-latest";
   EvPrint "Prompt: Write a short poem about a cat.";
   EvGenerateContent m poem_prompt None None;
   EvRaiseForStatus r; EvText r; EvText r;
   EvPrint ("Response: " +:+ str_of answer);
   EvPrint configuration_banner;
   EvGenerateContent m hamlet_prompt (Some demo_generation_config) None;
   EvRaiseForStatus r'; EvText r'; EvText r';
   EvPrint ("Response: " +:+ str_of answer')].
Proof.
  intros Hkey Hne Hcfg Hacq Hg Hs Ht Htrue Ha Hg' Hs' Ht' Htrue' Ha'.
  rewrite (main_with_key _ _ Hkey Hne).
  rewrite (GeminiAPIClient_accepted _ _ _ (environ_nul_free _ _ _ Hkey)
             Hne).
  cbv zeta. rewrite Hcfg, Hacq. cbn [print fst snd].
  rewrite (generate_content_steps _ _ _ _ _ m)
    by (unfold holds_model; cbn; by rewrite lookup_last).
  cbv zeta. cbn [lib]. rewrite Hg, Hs, Ht, Htrue, Ha.
  cbn [print fst snd heap environ trace lib].
  rewrite (generate_content_steps _ _ _ _ _ m)
    by (unfold holds_model; cbn; by rewrite lookup_last).
  cbv zeta. cbn [lib]. rewrite Hg', Hs', Ht', Htrue', Ha'.
  split; [reflexivity|]. cbn. by rewrite <- !app_assoc.
Qed.

(** ** [generate_content] *)

(** X8. Among the instances of [Exception], a [generate_content] call
    raises nothing but [GeminiAPIError]: if it raises one, that is the
    [ContentGenerationError] of an instance of [Exception] raised in its
    body.  This holds for every library and every state of the client. *)
Theorem generate_content_raises_GeminiAPIError self prompt
    (gc ss : option (gmap string Any)) st e :
  (generate_content self prompt gc ss st).1 = Raise e →
  isinstance e Exception = true →
  ∃ cause, e = ContentGenerationError cause ∧
           isinstance cause Exception = true ∧
           exn_class e = GeminiAPIError ∧ exn_cause e = Some cause.
Proof.
  assert (Hsurface : ∀ e0,
    Raise (A := OptStr)
      (if isinstance e0 Exception then ContentGenerationError e0 else e0) =
    Raise e →
    isinstance e Exception = true →
    ∃ cause, e = ContentGenerationError cause ∧
             isinstance cause Exception = true ∧
             exn_class e = GeminiAPIError ∧ exn_cause e = Some cause).
  { intros e0 Heq Hexc. destruct (isinstance e0 Exception) eqn:H0.
    - injection Heq as <-. by exists e0.
    - injection Heq as <-. congruence. }
  destruct (heap st !! self ≫= model) as [m|] eqn:Hm.
  - rewrite (generate_content_steps _ _ _ _ _ m Hm). cbv zeta.
    destruct (model_generate_content m prompt gc ss (lib st))
      as [[r|e0] w1]; [|apply Hsurface].
    destruct (response_raise_for_status r w1) as [[[]|e0] w2];
      [|apply Hsurface].
    destruct (response_text r w2) as [[t|e0] w3]; [|apply Hsurface].
    destruct (truthy t); [|discriminate].
    destruct (response_text r w3) as [[t'|e0] w4];
      [discriminate | apply Hsurface].
  - rewrite (generate_content_without_model _ _ _ _ _ Hm). cbn.
    intros [= <-] _. by exists (no_attribute "model").
Qed.

(** X9. A [generate_content] call has no effect of its own: it leaves
    the client objects and the process environment as they are, it prints
    nothing, and all that leaves the module is at most one call of the
    model (there is no retry) with the status check and the reads of the
    text that follow it. *)
Theorem generate_content_no_side_effects self prompt
    (gc ss : option (gmap string Any)) st :
  let result := generate_content self prompt gc ss st in
  heap result.2 = heap st ∧
  environ result.2 = environ st ∧
  ∃ run, trace result.2 = trace st ++ run ∧
         forallb is_generation_event run = true ∧
         printed run = [] ∧
         (length (model_calls run) ≤ 1)%nat.
Proof.
  intros result. subst result.
  destruct (generate_content_frame self prompt gc ss st) as [Hh He].
  split; [exact Hh|]. split; [exact He|].
  destruct (generate_content_run self prompt gc ss st)
    as (run & Htr & Hrun).
  exists run. split; [exact Htr|].
  destruct Hrun as [-> | (m & [-> | (r & [-> | [-> | ->]])])];
    cbn; auto.
Qed.

(** X10. On a client that holds a model, a [generate_content] call
    begins with exactly one call of that model, to which the prompt, the
    generation configuration and the safety settings are passed as they
    were given; no other call of a model follows. *)
Theorem generate_content_passes_arguments self prompt
    (gc ss : option (gmap string Any)) st m :
  holds_model st self m →
  ∃ rest,
    trace (generate_content self prompt gc ss st).2 =
    trace st ++ EvGenerateContent m prompt gc ss :: rest ∧
    model_calls rest = [].
Proof.
  intros Hm. rewrite (generate_content_steps _ _ _ _ _ m Hm). cbv zeta.
  destruct (model_generate_content m prompt gc ss (lib st))
    as [[r|e] w1]; [|by eexists].
  destruct (response_raise_for_status r w1) as [[[]|e] w2]; [|by eexists].
  destruct (response_text r w2) as [[t|e] w3]; [|by eexists].
  destruct (truthy t); [|by eexists].
  destruct (response_text r w3) as [[t'|e] w4]; by eexists.
Qed.

(** X11. The text is read twice, once for the test of line 90 and once
    for the [return] of line 91, and what is returned is what the second
    read gives: when the first read gives a non-empty text, the call
    returns the result of the second read, be it another text, the empty
    string or [None]. *)
Theorem generate_content_returns_second_read self prompt
    (gc ss : option (gmap string Any)) st m r w1 w2 t w3 answer w4 :
  holds_model st self m →
  model_generate_content m prompt gc ss (lib st) = (Return r, w1) →
  response_raise_for_status r w1 = (Return tt, w2) →
  response_text r w2 = (Return t, w3) →
  truthy t = true →
  response_text r w3 = (Return answer, w4) →
  (generate_content self prompt gc ss st).1 = Return answer.
Proof.
  intros Hm Hg Hs Ht Htrue Ha.
  rewrite (generate_content_steps _ _ _ _ _ m Hm). cbv zeta.
  by rewrite Hg, Hs, Ht, Htrue, Ha.
Qed.

(** ** The constructor *)

(** X12. Construction succeeds exactly when the key is a non-empty
    string that holds no NUL byte, [genai.configure] returns and
    [genai.GenerativeModel] returns. *)
Theorem construction_succeeds_iff (api_key : OptStr) model_name st :
  (∃ self, (GeminiAPIClient api_key model_name st).1 = Return self) ↔
  (∃ key w m w',
      api_key = Some key ∧ key ≠ "" ∧ has_nul key = false ∧
      genai_configure key (lib st) = (Return tt, w) ∧
      genai_GenerativeModel model_name w = (Return m, w')).
Proof.
  split.
  - intros [self Hret].
    destruct (truthy api_key) eqn:Htruthy.
    + destruct api_key as [key|]; [|discriminate].
      assert (Hne : key ≠ "").
      { intros ->. discriminate. }
      destruct (has_nul key) eqn:Hnul.
      { revert Hret. rewrite (GeminiAPIClient_nul _ _ _ Hne Hnul).
        discriminate. }
      revert Hret. rewrite (GeminiAPIClient_accepted _ _ _ Hnul Hne).
      cbv zeta.
      destruct (genai_configure key (lib st)) as [[[]|e] w] eqn:Hcfg;
        [|discriminate].
      destruct (genai_GenerativeModel model_name w) as [[m|e] w'] eqn:Hacq;
        [|discriminate].
      intros _. by exists key, w, m, w'.
    + revert Hret. rewrite (GeminiAPIClient_rejected _ _ _ Htruthy).
      discriminate.
  - intros (key & w & m & w' & -> & Hne & Hnul & Hcfg & Hacq).
    rewrite (GeminiAPIClient_accepted _ _ _ Hnul Hne). cbv zeta.
    rewrite Hcfg, Hacq. eauto.
Qed.

(** X13. Construction allocates one object and touches no other: the
    clients that exist keep their credential and their model handle,
    whether construction succeeds or fails, and a reference that
    construction returns is the reference of the new object. *)
Theorem construction_keeps_other_clients (api_key : OptStr) model_name st :
  let r := GeminiAPIClient api_key model_name st in
  (∃ object, heap r.2 = heap st ++ [object]) ∧
  (∀ other, (other < length (heap st))%nat →
            heap r.2 !! other = heap st !! other) ∧
  (∀ self, r.1 = Return self → self = length (heap st)).
Proof.
  intros r.
  assert (Hshape :
    (∃ object, heap r.2 = heap st ++ [object]) ∧
    (∀ self, r.1 = Return self → self = length (heap st))).
  { subst r. destruct (truthy api_key) eqn:Htruthy.
    - destruct api_key as [key|]; [|discriminate].
      assert (Hne : key ≠ "") by (intros ->; discriminate).
      destruct (has_nul key) eqn:Hnul.
      { rewrite (GeminiAPIClient_nul _ _ _ Hne Hnul).
        split; [by eexists | discriminate]. }
      rewrite (GeminiAPIClient_accepted _ _ _ Hnul Hne). cbv zeta.
      destruct (genai_configure key (lib st)) as [[[]|e] w];
        [|split; [by eexists | discriminate]].
      destruct (genai_GenerativeModel model_name w) as [[m|e] w'];
        (split; [by eexists|]); [by intros self [= <-] | discriminate].
    - rewrite (GeminiAPIClient_rejected _ _ _ Htruthy).
      split; [by eexists | discriminate]. }
  destruct Hshape as [Hheap Hself].
  split; [exact Hheap|]. split; [|exact Hself].
  destruct Hheap as [object ->]. intros other Hlt.
  by apply lookup_app_l.
Qed.

(** X14. Construction with a non-empty key that holds no NUL byte passes
    exactly that key to [genai.configure], after the environment variable
    has been set, and asks [genai.GenerativeModel] for exactly the model
    name it was given; it does so only if [genai.configure] returned, and
    if that raised, the acquisition of the model handle is not
    attempted. *)
Theorem construction_call_order key model_name st :
  key ≠ "" →
  has_nul key = false →
  let r := GeminiAPIClient (Some key) model_name st in
  (∀ e w, genai_configure key (lib st) = (Raise e, w) →
          trace r.2 =
          trace st ++ [EvEnvironSet "GOOGLE_API_KEY" key; EvConfigure key]) ∧
  (∀ w, genai_configure key (lib st) = (Return tt, w) →
        trace r.2 =
        trace st ++ [EvEnvironSet "GOOGLE_API_KEY" key; EvConfigure key;
                     EvGenerativeModel model_name]).
Proof.
  intros Hne Hnul r. subst r.
  rewrite (GeminiAPIClient_accepted _ _ _ Hnul Hne).
  cbv zeta. split.
  - by intros e w ->.
  - intros w ->.
    by destruct (genai_GenerativeModel model_name w) as [[m|e] w'].
Qed.

(** X15. A key that holds a NUL byte passes the check of line 57, and the
    assignment to [os.environ] of line 61 refuses it: construction raises
    the [ValueError] of that assignment, which the constructor does not
    wrap; the environment is left as it was, and the library is not
    called. *)
Theorem construction_refuses_nul_key key model_name st :
  key ≠ "" →
  has_nul key = true →
  let r := GeminiAPIClient (Some key) model_name st in
  r.1 = Raise (Exn ValueError "embedded null byte" None) ∧
  environ r.2 = environ st ∧
  trace r.2 = trace st ∧
  lib r.2 = lib st.
Proof.
  intros Hne Hnul r. subst r.
  by rewrite (GeminiAPIClient_nul _ _ _ Hne Hnul).
Qed.

End Further.

(** ** Runs of the further properties *)

Lemma main_with_empty_key_witness :
  main (G := stub (answers (Some "a poem"))) (fresh_process key_empty) =
  (Return tt, mkState [] key_empty [EvPrint missing_key_message] 0).
Proof.
  rewrite (main_with_empty_key (G := stub (answers (Some "a poem")))
             (fresh_process key_empty));
    [reflexivity | vm_compute; reflexivity].
Defined.

Lemma main_copies_key_witness :
  environ (main (G := stub (status_fails runtime_error))
             (fresh_process key_k)).2 =
  <["GOOGLE_API_KEY" := "k"]> {[ "GEMINI_API_KEY" := "k" ]}.
Proof.
  rewrite (main_copies_key (G := stub (status_fails runtime_error)) "k"
             (fresh_process key_k));
    [reflexivity | vm_compute; reflexivity | discriminate].
Defined.

Lemma main_reports_failed_acquisition_witness :
  (main (G := stub (acquisition_fails runtime_error))
     (fresh_process key_k)).1 = Return tt ∧
  trace (main (G := stub (acquisition_fails runtime_error))
           (fresh_process key_k)).2 =
  [EvEnvironSet "GOOGLE_API_KEY" "k"; EvConfigure "k";
   EvGenerativeModel "gemini-1.5-pro-latest";
   EvPrint "Error: Failed to initialize model: boom"].
Proof.
  destruct (main_reports_failed_acquisition
              (G := stub (acquisition_fails runtime_error)) "k"
              (fresh_process key_k)
              1 runtime_error 2) as [Hret Htrace];
    [vm_compute; reflexivity | discriminate | reflexivity | reflexivity
    | reflexivity |].
  split; [exact Hret | rewrite Htrace; reflexivity].
Defined.

Lemma main_reports_failed_configure_witness :
  (main (G := stub (configure_fails runtime_error))
     (fresh_process key_k)).1 = Return tt ∧
  trace (main (G := stub (configure_fails runtime_error))
           (fresh_process key_k)).2 =
  [EvEnvironSet "GOOGLE_API_KEY" "k"; EvConfigure "k";
   EvPrint "An unexpected error occurred: boom"].
Proof.
  destruct (main_reports_failed_configure
              (G := stub (configure_fails runtime_error)) "k"
              (fresh_process key_k)
              runtime_error 1) as [Hret Htrace];
    [vm_compute; reflexivity | discriminate | reflexivity | reflexivity |].
  split; [exact Hret | rewrite Htrace; reflexivity].
Defined.

Lemma main_stops_after_failed_generation_witness :
  (main (G := stub (generation_fails not_found))
     (fresh_process key_k)).1 = Return tt ∧
  trace (main (G := stub (generation_fails not_found))
           (fresh_process key_k)).2 =
  [EvEnvironSet "GOOGLE_API_KEY" "k"; EvConfigure "k";
   EvGenerativeModel "gemini-1.5-pro-latest";
   EvPrint "Prompt: Write a short poem about a cat.";
   EvGenerateContent "gemini-1.5-pro-latest" poem_prompt None None;
   EvPrint "Error: Gemini API error: 404 model not found"].
Proof.
  destruct (main_stops_after_failed_generation
              (G := stub (generation_fails not_found)) "k"
              (fresh_process key_k)
              1 "gemini-1.5-pro-latest" 2 not_found 3) as [Hret Htrace];
    [vm_compute; reflexivity | discriminate | reflexivity | reflexivity
    | reflexivity | reflexivity |].
  split; [exact Hret | rewrite Htrace; reflexivity].
Defined.

Lemma main_prints_both_answers_witness :
  (main (G := stub (answers (Some "a poem")))
     (fresh_process key_k)).1 = Return tt ∧
  printed (trace (main (G := stub (answers (Some "a poem")))
                    (fresh_process key_k)).2) =
  ["Prompt: Write a short poem about a cat."; "Response: a poem";
   configuration_banner; "Response: a poem"].
Proof.
  destruct (main_prints_both_answers
              (G := stub (answers (Some "a poem"))) "k"
              (fresh_process key_k)
              1 "gemini-1.5-pro-latest" 2
              poem_prompt 3 4 (Some "a poem") 5 (Some "a poem") 6
              hamlet_prompt 7 8 (Some "a poem") 9 (Some "a poem") 10)
    as [Hret Htrace];
    [vm_compute; reflexivity | discriminate | reflexivity ..|].
  split; [exact Hret | rewrite Htrace; reflexivity].
Defined.

Lemma generate_content_raises_GeminiAPIError_witness :
  ∃ cause,
    ContentGenerationError not_found = ContentGenerationError cause ∧
    isinstance cause Exception = true ∧
    exn_class (ContentGenerationError not_found) = GeminiAPIError ∧
    exn_cause (ContentGenerationError not_found) = Some cause.
Proof.
  apply (generate_content_raises_GeminiAPIError
           (G := stub (generation_fails not_found)) 0 "p" None None
           constructed (ContentGenerationError not_found));
    reflexivity.
Defined.

Lemma generate_content_passes_arguments_witness :
  ∃ rest,
    trace (generate_content (G := stub (answers (Some "a poem"))) 0 "p"
             (Some demo_generation_config) None constructed).2 =
    trace constructed ++
    EvGenerateContent "m" "p" (Some demo_generation_config) None :: rest ∧
    model_calls rest = [].
Proof.
  apply (generate_content_passes_arguments
           (G := stub (answers (Some "a poem"))) 0 "p"
           (Some demo_generation_config) None constructed "m").
  reflexivity.
Defined.

Lemma generate_content_returns_second_read_witness :
  (generate_content (G := forgetful) 0 "p" None None constructed).1 =
  Return None.
Proof.
  apply (generate_content_returns_second_read (G := forgetful) 0 "p" None
           None constructed "m" "p" 1 2 (Some "a poem") 3 None 4);
    reflexivity.
Defined.

Lemma construction_call_order_witness :
  trace (GeminiAPIClient (G := stub (configure_fails runtime_error))
           (Some "k") "m" (fresh_process Environ_empty)).2 =
  [EvEnvironSet "GOOGLE_API_KEY" "k"; EvConfigure "k"].
Proof.
  destruct (construction_call_order
              (G := stub (configure_fails runtime_error)) "k" "m"
              (fresh_process Environ_empty)) as [Hraised _].
  - discriminate.
  - reflexivity.
  - apply (Hraised runtime_error 1). reflexivity.
Defined.

Lemma construction_refuses_nul_key_witness :
  (GeminiAPIClient (G := stub (answers (Some "a poem"))) (Some nul_key) "m"
     (fresh_process key_k)).1 =
  Raise (Exn ValueError "embedded null byte" None) ∧
  lib (GeminiAPIClient (G := stub (answers (Some "a poem"))) (Some nul_key)
         "m" (fresh_process key_k)).2 = 0.
Proof.
  destruct (construction_refuses_nul_key
              (G := stub (answers (Some "a poem"))) nul_key "m"
              (fresh_process key_k)) as (Hraise & _ & _ & Hlib).
  - discriminate.
  - reflexivity.
  - split; [exact Hraise | exact Hlib].
Defined.
